(** * The product-item route of [main.py]

    [main.py] declares one route,
    [GET /products/{category}/items/{item_id}], whose handler
    [read_product_item] builds a dict from its four parameters and returns
    it.  This file embeds the handler and states what it does.

    - Python values are a tagged union; [str] is [string], [int] is [Z]
      (Python integers are unbounded), [bool] is [bool] and [float] is an
      IEEE 754 binary64 number ([spec_float]).
    - A Python dict with string keys is a [gmap string value].
    - A dict is a heap object: the handler allocates it and returns a
      reference to it.  The heap is threaded explicitly, in a small
      state-and-exception monad, so that "touches nothing but its own
      result" is a statement about heaps. *)

From Stdlib Require Import ZArith Ascii.
From Stdlib Require Import Floats.SpecFloat.
From stdpp Require Import gmap strings list fin_maps.

Local Open Scope Z_scope.
Local Open Scope string_scope.

(** ** Python values *)

Module Py.

(** References to heap objects. *)
Definition loc := positive.

(** Python's [float]: binary64, 53 bits of precision, [emax = 1024]. *)
Definition float := spec_float.
Definition prec : Z := 53.
Definition emax : Z := 1024.

(** [float(n)] for an integer [n], and the literal [m * 2^e]. *)
Definition float_of_Z (n : Z) : float := binary_normalize prec emax n 0 false.
Definition float_lit (m e : Z) : float := binary_normalize prec emax m e false.

Inductive value : Type :=
| VStr (s : string)
| VInt (n : Z)
| VBool (b : bool)
| VFloat (f : float).

(** A raised exception: its class and its message. *)
Inductive exn : Type :=
| Exception (cls msg : string).

(** How a call ends: with a value or with a raised exception. *)
Inductive outcome (A : Type) : Type :=
| Returned (a : A)
| Raised (e : exn).
Arguments Returned {A} a.
Arguments Raised {A} e.

(** The heap holds the dict objects. *)
Abbreviation heap := (gmap loc (gmap string value)).

(** Computations: heap in, outcome and heap out. *)
Definition M (A : Type) : Type := heap -> outcome A * heap.

Definition ret {A} (a : A) : M A := fun h => (Returned a, h).

Definition bind {A B} (m : M A) (k : A -> M B) : M B :=
  fun h =>
    match m h with
    | (Returned a, h') => k a h'
    | (Raised e, h') => (Raised e, h')
    end.

Definition raise {A} (e : exn) : M A := fun h => (Raised e, h).

(** A dict display [{k1: v1, ..., kn: vn}]: the entries are stored left
    to right into an empty dict (a later duplicate key overwrites an
    earlier one), and the new object gets a reference not in use. *)
Definition dict_of (entries : list (string * value)) : gmap string value :=
  foldl (fun d kv => <[kv.1 := kv.2]> d) ∅ entries.

Definition new_dict (entries : list (string * value)) : M loc :=
  fun h => let l := fresh (dom h) in (Returned l, <[l := dict_of entries]> h).

(** The dict a finished call returned, read in the final heap, and one
    of its entries. *)
Definition deref (r : outcome loc * heap) : option (gmap string value) :=
  match r with
  | (Returned l, h) => h !! l
  | (Raised _, _) => None
  end.

Definition field (key : string) (r : outcome loc * heap) : option value :=
  item ← deref r; item !! key.

End Py.

Import Py.

(** stdpp's monad notation [x ← m; k] for [M]. *)
#[global] Instance M_ret : MRet M := @ret.
#[global] Instance M_bind : MBind M := fun A B k m => bind m k.

(** ** The handler *)

(** [async def read_product_item(category: str, item_id: int,
                                 urgent: bool = False, discount: float = 0.0)].
    The body has no [await]: once the coroutine is awaited it runs to its
    [return] in one go, which is the computation below. *)
Definition read_product_item
    (category : string) (item_id : Z) (urgent : bool) (discount : float) : M loc :=
  item ← new_dict [ ("category", VStr category);
                    ("item_id", VInt item_id);
                    ("urgent", VBool urgent);
                    ("discount_applied", VFloat discount) ];
  mret item.

(** The defaults of the signature: [urgent = False], [discount = 0.0]. *)
Definition default_urgent : bool := false.
Definition default_discount : float := S754_zero false.

(** A call that may leave out the two parameters that have defaults. *)
Definition call_read_product_item
    (category : string) (item_id : Z)
    (urgent : option bool) (discount : option float) : M loc :=
  read_product_item category item_id
    (default default_urgent urgent) (default default_discount discount).

(** ** The routing and validation layer *)

Module Routing.

(** A request that matched the template
    [/products/{category}/items/{item_id}]: the two path segments as
    text, and the two query parameters as text when present. *)
Record request : Type := {
  req_category : string;
  req_item_id : string;
  req_urgent : option string;
  req_discount : option string
}.

Inductive response : Type :=
| Success (body : loc)
| ClientError.

(** Modelled from the spec: the integer coercion of a path segment ("must
    parse as a whole number"), which the framework does and src/ does not
    hold: an optional sign and one or more decimal digits. *)
Definition digit_of (a : ascii) : option Z :=
  let n := Z.of_N (N_of_ascii a) in
  if bool_decide (48 <= n <= 57) then Some (n - 48) else None.

Fixpoint digits_of (acc : Z) (s : string) : option Z :=
  match s with
  | EmptyString => Some acc
  | String a s' =>
      match digit_of a with
      | Some k => digits_of (10 * acc + k) s'
      | None => None
      end
  end.

Definition int_of_token (s : string) : option Z :=
  match s with
  | EmptyString => None
  | String "-"%char (String _ _ as ds) => Z.opp <$> digits_of 0 ds
  | String "+"%char (String _ _ as ds) => digits_of 0 ds
  | _ => digits_of 0 s
  end.

Section Collaborator.

(** The coercions from text are the framework's. *)
Variable parse_int : string -> option Z.
Variable parse_bool : string -> option bool.
Variable parse_float : string -> option float.

(** An optional parameter: absent is fine, present must parse. *)
Definition coerce_optional {A} (parse : string -> option A)
    (tok : option string) : option (option A) :=
  match tok with
  | None => Some None
  | Some t => Some <$> parse t
  end.

(** Modelled from the spec: the routing/validation collaborator (the
    web framework behind [@app.get]), which is not under src/.  It
    coerces every parameter to the type the handler's signature
    declares; when a coercion fails it answers with a client error and
    the handler is not called, otherwise it calls the handler with the
    coerced values and answers with what the handler returned. *)
Definition dispatch (req : request) : M response :=
  match parse_int (req_item_id req),
        coerce_optional parse_bool (req_urgent req),
        coerce_optional parse_float (req_discount req) with
  | Some item_id, Some urgent, Some discount =>
      item ← call_read_product_item (req_category req) item_id urgent discount;
      mret (Success item)
  | _, _, _ => mret ClientError
  end.

End Collaborator.

End Routing.

(** * Properties *)

(** ** What one call does to the heap *)

Section Handler.

Variables (category : string) (item_id : Z) (urgent : bool) (discount : float).

(** The dict display of the body. *)
Local Abbreviation item_entries :=
  [ ("category", VStr category); ("item_id", VInt item_id);
    ("urgent", VBool urgent); ("discount_applied", VFloat discount) ].

Lemma fresh_unused (h : heap) : h !! fresh (dom h) = None.
Proof. apply (not_elem_of_dom (D := gset loc)), is_fresh. Qed.

Lemma read_product_item_run (h : heap) :
  read_product_item category item_id urgent discount h
  = (Returned (fresh (dom h)), <[fresh (dom h) := dict_of item_entries]> h).
Proof. reflexivity. Qed.

Lemma deref_read_product_item (h : heap) :
  deref (read_product_item category item_id urgent discount h)
  = Some (dict_of item_entries).
Proof. rewrite read_product_item_run. cbn. apply lookup_insert_eq. Qed.

Lemma item_lookup (key : string) :
  dict_of item_entries !! key =
    if decide (key = "discount_applied") then Some (VFloat discount)
    else if decide (key = "urgent") then Some (VBool urgent)
    else if decide (key = "item_id") then Some (VInt item_id)
    else if decide (key = "category") then Some (VStr category)
    else None.
Proof.
  cbn. repeat (rewrite lookup_insert; case_decide; subst; [by repeat case_decide |]).
  rewrite lookup_empty. by repeat case_decide.
Qed.

Lemma item_dom :
  dom (dict_of item_entries)
  = ({[ "category"; "item_id"; "urgent"; "discount_applied" ]} : gset string).
Proof. cbn. rewrite !dom_insert_L, dom_empty_L. set_solver. Qed.

Lemma item_size : size (dict_of item_entries) = 4%nat.
Proof.
  cbn. rewrite !map_size_insert_None, map_size_empty; [done | ..];
    by repeat (rewrite lookup_insert_ne by done).
Qed.

Lemma field_read_product_item (key : string) (h : heap) :
  field key (read_product_item category item_id urgent discount h)
  = dict_of item_entries !! key.
Proof. unfold field. by rewrite deref_read_product_item. Qed.

End Handler.

(** ** The shape of the result *)

(** C1: every call of [read_product_item] returns a dict whose keys are
    exactly [category], [item_id], [urgent] and [discount_applied]: four
    keys, the parameter [discount] stored under [discount_applied], and no
    key named [discount]. *)
Theorem read_product_item_keys
    (category : string) (item_id : Z) (urgent : bool) (discount : float) (h : heap) :
  exists item : gmap string value,
    deref (read_product_item category item_id urgent discount h) = Some item
    /\ dom item = ({[ "category"; "item_id"; "urgent"; "discount_applied" ]} : gset string)
    /\ size item = 4%nat
    /\ item !! "discount_applied" = Some (VFloat discount)
    /\ item !! "discount" = None.
Proof.
  eexists. split; [apply deref_read_product_item |].
  split; [apply item_dom |]. split; [apply item_size |].
  by rewrite !item_lookup.
Qed.

(** C2: every value of the returned dict is the argument itself:
    [category] holds the string, [item_id] the integer, [urgent] the
    boolean and [discount_applied] the float that were passed in. *)
Theorem read_product_item_values
    (category : string) (item_id : Z) (urgent : bool) (discount : float) (h : heap) :
  exists item : gmap string value,
    deref (read_product_item category item_id urgent discount h) = Some item
    /\ item !! "category" = Some (VStr category)
    /\ item !! "item_id" = Some (VInt item_id)
    /\ item !! "urgent" = Some (VBool urgent)
    /\ item !! "discount_applied" = Some (VFloat discount).
Proof.
  eexists. split; [apply deref_read_product_item |].
  by rewrite !item_lookup.
Qed.

(** C3: a call that leaves out [urgent] answers [urgent = False], and a
    call that leaves out [discount] answers [discount_applied = 0.0],
    whatever the other arguments are. *)
Theorem read_product_item_defaults
    (category : string) (item_id : Z)
    (urgent : option bool) (discount : option float) (h : heap) :
  field "urgent" (call_read_product_item category item_id None discount h)
    = Some (VBool false)
  /\ field "discount_applied" (call_read_product_item category item_id urgent None h)
    = Some (VFloat (S754_zero false)).
Proof.
  unfold call_read_product_item.
  by rewrite !field_read_product_item, !item_lookup.
Qed.

(** ** Purity *)

(** C4: the result of a call is determined by the four arguments: two
    calls with the same arguments return equal dicts, from whatever heaps
    they start.  A call changes nothing that existed before it: the final
    heap is the initial one plus the returned dict, stored at a reference
    that was not in use. *)
Theorem read_product_item_pure
    (category : string) (item_id : Z) (urgent : bool) (discount : float)
    (h1 h2 : heap) :
  deref (read_product_item category item_id urgent discount h1)
    = deref (read_product_item category item_id urgent discount h2)
  /\ is_Some (deref (read_product_item category item_id urgent discount h1))
  /\ exists (l : loc) (item : gmap string value),
       read_product_item category item_id urgent discount h1
         = (Returned l, <[l := item]> h1)
       /\ h1 !! l = None.
Proof.
  rewrite !deref_read_product_item. split; [done |]. split; [by eexists |].
  exists (fresh (dom h1)). eexists. split; [apply read_product_item_run |].
  apply fresh_unused.
Qed.

(** C7: a call with well-typed arguments always returns: for every
    argument tuple and every heap the outcome is [Returned], never
    [Raised]. *)
Theorem read_product_item_returns
    (category : string) (item_id : Z) (urgent : bool) (discount : float) (h : heap) :
  (exists (l : loc) (h' : heap),
     read_product_item category item_id urgent discount h = (Returned l, h'))
  /\ (forall (e : exn) (h' : heap),
        read_product_item category item_id urgent discount h <> (Raised e, h')).
Proof.
  rewrite read_product_item_run. split; [by eauto | done].
Qed.

(** C9: each entry of the result depends on its own parameter only: two
    calls that agree on one parameter agree on the entry it feeds,
    whatever the other three parameters and the heaps are. *)
Theorem read_product_item_noninterference
    (category category' : string) (item_id item_id' : Z)
    (urgent urgent' : bool) (discount discount' : float) (h h' : heap) :
  field "category" (read_product_item category item_id urgent discount h)
    = field "category" (read_product_item category item_id' urgent' discount' h')
  /\ field "item_id" (read_product_item category item_id urgent discount h)
    = field "item_id" (read_product_item category' item_id urgent' discount' h')
  /\ field "urgent" (read_product_item category item_id urgent discount h)
    = field "urgent" (read_product_item category' item_id' urgent discount' h')
  /\ field "discount_applied" (read_product_item category item_id urgent discount h)
    = field "discount_applied" (read_product_item category' item_id' urgent' discount h')
  /\ is_Some (field "category" (read_product_item category item_id urgent discount h))
  /\ is_Some (field "item_id" (read_product_item category item_id urgent discount h))
  /\ is_Some (field "urgent" (read_product_item category item_id urgent discount h))
  /\ is_Some (field "discount_applied"
                (read_product_item category item_id urgent discount h)).
Proof.
  rewrite !field_read_product_item, !item_lookup. cbn.
  repeat split; by eexists.
Qed.

(** C10: the body checks nothing about the values: any string, the empty
    one included, and any integer, zero and the negative ones included,
    is accepted and comes back unchanged. *)
Theorem read_product_item_unconstrained
    (category : string) (item_id : Z) (p : positive)
    (urgent : bool) (discount : float) (h : heap) :
  (field "category" (read_product_item category item_id urgent discount h)
     = Some (VStr category)
   /\ field "item_id" (read_product_item category item_id urgent discount h)
     = Some (VInt item_id))
  /\ field "category" (read_product_item "" item_id urgent discount h)
     = Some (VStr "")
  /\ field "item_id" (read_product_item category 0 urgent discount h)
     = Some (VInt 0)
  /\ field "item_id" (read_product_item category (Z.neg p) urgent discount h)
     = Some (VInt (Z.neg p)).
Proof.
  by rewrite !field_read_product_item, !item_lookup.
Qed.

(** ** The scenarios *)

(** The floats of the scenarios, in binary64: [-5.0] is [-(5 * 2^50) * 2^-50]
    and [15.5] is [(31 * 2^48) * 2^-49]. *)
Lemma float_minus_five :
  float_of_Z (-5) = S754_finite true (5 * 2 ^ 50) (-50)
  /\ valid_binary prec emax (float_of_Z (-5)) = true.
Proof. split; reflexivity. Qed.

Lemma float_fifteen_and_half :
  float_lit 31 (-1) = S754_finite false (31 * 2 ^ 48) (-49)
  /\ valid_binary prec emax (float_lit 31 (-1)) = true.
Proof. split; reflexivity. Qed.

(** C5: a negative discount is accepted and echoed: the call for
    [/products/food/items/3?discount=-5], with [urgent] left out, returns
    [{category: "food", item_id: 3, urgent: False, discount_applied: -5.0}]. *)
Theorem negative_discount_echoed (h : heap) :
  deref (call_read_product_item "food" 3 None (Some (float_of_Z (-5))) h)
    = Some {[ "category" := VStr "food"; "item_id" := VInt 3;
              "urgent" := VBool false;
              "discount_applied" := VFloat (S754_finite true (5 * 2 ^ 50) (-50)) ]}
  /\ SFltb (float_of_Z (-5)) (S754_zero false) = true
  /\ exists (l : loc) (h' : heap),
       call_read_product_item "food" 3 None (Some (float_of_Z (-5))) h
         = (Returned l, h').
Proof.
  unfold call_read_product_item. rewrite deref_read_product_item.
  split; [by vm_compute |]. split; [done |].
  rewrite read_product_item_run. by eauto.
Qed.

(** C6: the call for [/products/books/items/7?urgent=true&discount=15.5]
    returns [{category: "books", item_id: 7, urgent: True,
    discount_applied: 15.5}], and the call for
    [/products/electronics/items/42], with both query parameters left out,
    returns [{category: "electronics", item_id: 42, urgent: False,
    discount_applied: 0.0}]. *)
Theorem scenario_results (h : heap) :
  deref (call_read_product_item "books" 7 (Some true) (Some (float_lit 31 (-1))) h)
    = Some {[ "category" := VStr "books"; "item_id" := VInt 7;
              "urgent" := VBool true;
              "discount_applied" := VFloat (S754_finite false (31 * 2 ^ 48) (-49)) ]}
  /\ deref (call_read_product_item "electronics" 42 None None h)
    = Some {[ "category" := VStr "electronics"; "item_id" := VInt 42;
              "urgent" := VBool false;
              "discount_applied" := VFloat (S754_zero false) ]}.
Proof.
  unfold call_read_product_item. rewrite !deref_read_product_item.
  split; by vm_compute.
Qed.

(** ** Requests that do not reach the handler *)

(** Running the body always leaves a trace in the heap: the new dict. *)
Lemma read_product_item_allocates
    (category : string) (item_id : Z) (urgent : bool) (discount : float) (h : heap) :
  (read_product_item category item_id urgent discount h).2 <> h.
Proof.
  rewrite read_product_item_run. cbn. intros E.
  apply (f_equal (.!! fresh (dom h))) in E.
  by rewrite lookup_insert_eq, fresh_unused in E.
Qed.

(** C8: a request whose [item_id] segment does not parse as an integer is
    answered with a client error by the routing layer, and the handler body
    does not run for it: the heap is left as it was, while a run of the
    body would have changed it. *)
Theorem dispatch_rejects_bad_item_id
    (parse_int : string -> option Z) (parse_bool : string -> option bool)
    (parse_float : string -> option float)
    (req : Routing.request) (h : heap) :
  parse_int (Routing.req_item_id req) = None ->
  Routing.dispatch parse_int parse_bool parse_float req h
    = (Returned Routing.ClientError, h)
  /\ forall (category : string) (item_id : Z) (urgent : bool) (discount : float),
       (read_product_item category item_id urgent discount h).2 <> h.
Proof.
  intros E. split; [| intros; apply read_product_item_allocates].
  unfold Routing.dispatch. by rewrite E.
Qed.

Lemma dispatch_rejects_bad_item_id_witness :
  Routing.int_of_token "abc" = None
  /\ Routing.dispatch Routing.int_of_token (fun _ => None) (fun _ => None)
       {| Routing.req_category := "toys"; Routing.req_item_id := "abc";
          Routing.req_urgent := None; Routing.req_discount := None |} ∅
     = (Returned Routing.ClientError, ∅).
Proof.
  split; [reflexivity |].
  apply (dispatch_rejects_bad_item_id Routing.int_of_token (fun _ => None) (fun _ => None)
           {| Routing.req_category := "toys"; Routing.req_item_id := "abc";
              Routing.req_urgent := None; Routing.req_discount := None |} ∅).
  reflexivity.
Defined.

(** ** Beyond one call *)

(** The dict a call with these arguments builds. *)
Abbreviation item_display category item_id urgent discount :=
  (dict_of [ ("category", VStr category); ("item_id", VInt item_id);
             ("urgent", VBool urgent); ("discount_applied", VFloat discount) ]).

Lemma item_display_inj
    (c c' : string) (i i' : Z) (u u' : bool) (d d' : float) :
  item_display c i u d = item_display c' i' u' d' ->
  c = c' /\ i = i' /\ u = u' /\ d = d'.
Proof.
  intros E.
  pose proof (f_equal (.!! "category") E) as Ec.
  pose proof (f_equal (.!! "item_id") E) as Ei.
  pose proof (f_equal (.!! "urgent") E) as Eu.
  pose proof (f_equal (.!! "discount_applied") E) as Ed.
  rewrite !item_lookup in Ec, Ei, Eu, Ed. cbn in *.
  by simplify_eq.
Qed.

(** Running the handler once per element of a list of argument tuples. *)
Lemma mapM_read_product_item_cons
    (f : string * Z * bool * float -> M loc)
    (a : string * Z * bool * float) (calls : list (string * Z * bool * float))
    (h : heap) :
  mapM f (a :: calls) h
  = match f a h with
    | (Returned l, h0) =>
        match mapM f calls h0 with
        | (Returned ls, h') => (Returned (l :: ls), h')
        | (Raised e, h') => (Raised e, h')
        end
    | (Raised e, h0) => (Raised e, h0)
    end.
Proof.
  reflexivity.
Qed.

(** X1: the result keeps all of the call's information: two calls that
    return equal dicts were made with the same four arguments. *)
Theorem read_product_item_injective
    (category category' : string) (item_id item_id' : Z)
    (urgent urgent' : bool) (discount discount' : float) (h h' : heap) :
  deref (read_product_item category item_id urgent discount h)
    = deref (read_product_item category' item_id' urgent' discount' h') ->
  category = category' /\ item_id = item_id'
  /\ urgent = urgent' /\ discount = discount'.
Proof.
  rewrite !deref_read_product_item. intros E.
  apply item_display_inj. congruence.
Qed.

Lemma read_product_item_injective_witness :
  deref (read_product_item "books" 7 true (float_lit 31 (-1)) ∅)
    = deref (read_product_item "books" 7 true (float_lit 31 (-1))
               {[ 1%positive := ∅ ]})
  /\ ("books" = "books" /\ 7 = 7 /\ true = true
      /\ float_lit 31 (-1) = float_lit 31 (-1)).
Proof.
  split; [by vm_compute |].
  apply (read_product_item_injective "books" "books" 7 7 true true
           (float_lit 31 (-1)) (float_lit 31 (-1)) ∅ {[ 1%positive := ∅ ]}).
  by vm_compute.
Defined.

(** X2: two calls in a row return two different dict objects.  After the
    second call each object holds the values of its own call, neither
    reference was in use before, and everything that was in the heap
    before is still there. *)
Theorem read_product_item_twice
    (c1 c2 : string) (i1 i2 : Z) (u1 u2 : bool) (d1 d2 : float) (h : heap) :
  exists (l1 l2 : loc) (h' : heap),
    (l1 ← read_product_item c1 i1 u1 d1;
     l2 ← read_product_item c2 i2 u2 d2;
     mret (l1, l2)) h = (Returned (l1, l2), h')
    /\ l1 <> l2
    /\ h' !! l1 = Some (item_display c1 i1 u1 d1)
    /\ h' !! l2 = Some (item_display c2 i2 u2 d2)
    /\ h !! l1 = None /\ h !! l2 = None
    /\ h ⊆ h'.
Proof.
  set (l1 := fresh (dom h)).
  set (h1 := <[l1 := item_display c1 i1 u1 d1]> h).
  set (l2 := fresh (dom h1)).
  exists l1, l2, (<[l2 := item_display c2 i2 u2 d2]> h1).
  assert (h !! l1 = None) as F1 by apply fresh_unused.
  assert (h1 !! l2 = None) as F2 by apply fresh_unused.
  assert (l1 <> l2) as N.
  { intros E. rewrite <- E in F2. unfold h1 in F2.
    by rewrite lookup_insert_eq in F2. }
  split; [reflexivity |]. split; [done |].
  split.
  { rewrite lookup_insert_ne by (intros E; by apply N).
    unfold h1. apply lookup_insert_eq. }
  split; [apply lookup_insert_eq |]. split; [done |].
  split.
  { rewrite <- F2. unfold h1. symmetry. by apply lookup_insert_ne. }
  etrans; [apply (insert_subseteq h l1), F1 | apply insert_subseteq, F2].
Qed.

(** X3: any number of calls in a row, one per argument tuple, all return,
    and give one dict object per call: the references are pairwise
    different and none was in use before, each object holds the values of
    its own call after all calls are done, what was in the heap before is
    still there, and the heap has grown by exactly one object per call. *)
Theorem read_product_item_sequence
    (calls : list (string * Z * bool * float)) (h : heap) :
  exists (ls : list loc) (h' : heap),
    mapM (fun '(category, item_id, urgent, discount) =>
            read_product_item category item_id urgent discount) calls h
      = (Returned ls, h')
    /\ NoDup ls
    /\ Forall (fun l => h !! l = None) ls
    /\ Forall2 (fun l '(category, item_id, urgent, discount) =>
                  h' !! l = Some (item_display category item_id urgent discount))
               ls calls
    /\ h ⊆ h'
    /\ size h' = (size h + length calls)%nat.
Proof.
  revert h. induction calls as [| [[[c i] u] d] calls IH]; intros h.
  { exists [], h. split; [reflexivity |]. split; [constructor |].
    split; [constructor |]. split; [constructor |]. split; [done |].
    cbn. lia. }
  rewrite mapM_read_product_item_cons, read_product_item_run.
  set (l0 := fresh (dom h)).
  set (h0 := <[l0 := item_display c i u d]> h).
  assert (h !! l0 = None) as F0 by apply fresh_unused.
  assert (h0 !! l0 = Some (item_display c i u d)) as H0
    by apply lookup_insert_eq.
  assert (h ⊆ h0) as S0 by apply insert_subseteq, F0.
  destruct (IH h0) as (ls & h' & E & ND & Fr & Vals & Sub & Sz).
  rewrite E. exists (l0 :: ls), h'. split; [reflexivity |].
  split.
  { constructor; [| done]. intros In.
    rewrite Forall_forall in Fr. specialize (Fr _ In). congruence. }
  split.
  { constructor; [done |]. eapply Forall_impl; [exact Fr |].
    intros l Hl. cbn in Hl. destruct (h !! l) as [x |] eqn:Hx; [| done].
    eapply lookup_weaken in Hx; [| exact S0]. congruence. }
  split.
  { constructor; [| done]. eapply lookup_weaken; [exact H0 | exact Sub]. }
  split; [by etrans |].
  rewrite Sz. unfold h0. rewrite map_size_insert_None by done. cbn. lia.
Qed.

(** X4: a value passed for [urgent] or [discount] is the value returned,
    the default never replaces it; and a call that leaves both out cannot
    be told from a call that passes [False] and [0.0]: the two return the
    same dict. *)
Theorem call_read_product_item_explicit
    (category : string) (item_id : Z) (urgent : bool) (discount : float)
    (urgent_opt : option bool) (discount_opt : option float) (h : heap) :
  field "urgent"
    (call_read_product_item category item_id (Some urgent) discount_opt h)
    = Some (VBool urgent)
  /\ field "discount_applied"
    (call_read_product_item category item_id urgent_opt (Some discount) h)
    = Some (VFloat discount)
  /\ deref (call_read_product_item category item_id None None h)
    = deref (call_read_product_item category item_id
               (Some false) (Some (S754_zero false)) h)
  /\ deref (call_read_product_item category item_id None None h)
    = Some (item_display category item_id false (S754_zero false)).
Proof.
  unfold call_read_product_item.
  rewrite !field_read_product_item, !item_lookup, !deref_read_product_item.
  done.
Qed.
